(** * FKS Forex service: the API routes of [src/api/routes.py]

    A shallow embedding of the route handlers (pair catalog, pair detail,
    analysis, signal listing, session information) and of the session
    classifier, followed by the properties of the specification.

    Conventions of the embedding:
    - a Python [str] is a [string], the bytes of its UTF-8 encoding;
    - [str.upper] is a parameter of the routes: its case tables are those
      of the interpreter's Unicode database, not of this repository.  The
      properties use of it at most that, on a string of ASCII characters,
      it moves [a]..[z] to [A]..[Z] and leaves the rest ([Py.upper_on_ascii]);
    - a Python [float] is a binary64 [float] of the kernel, and a literal
      such as [0.78] denotes the nearest binary64 value, as in Python;
    - the dict [FOREX_PAIRS] is an association list in insertion order
      (Python dicts iterate in insertion order);
    - the wall clock is part of the state a handler runs in: every call of
      [datetime.now] or [datetime.utcnow] is one read of the clock;
    - [raise HTTPException(...)] is the [Raise] outcome of a handler. *)

From Stdlib Require Import ZArith List String Ascii Bool Floats Lia.
Import ListNotations.

(* Decimal literals are rounded to the nearest binary64 value, as Python
   does; the nested type of dict values needs no extra scheme. *)
#[local] Set Warnings "-inexact-float,-register-all".

Local Open Scope string_scope.
Local Open Scope Z_scope.

(** ** Python values *)

Module Py.

(** The uppercase form of one ASCII character: [a]..[z] are moved to
    [A]..[Z]. *)
Definition ascii_upper_char (c : ascii) : ascii :=
  let n := nat_of_ascii c in
  if (Nat.leb 97 n && Nat.leb n 122)%bool then ascii_of_nat (n - 32) else c.

(** The uppercase form of a string of ASCII characters. *)
Fixpoint ascii_upper (s : string) : string :=
  match s with
  | EmptyString => EmptyString
  | String c r => String (ascii_upper_char c) (ascii_upper r)
  end.

(** [s.isascii()]: every character of [s] is below 128. *)
Fixpoint is_ascii (s : string) : bool :=
  match s with
  | EmptyString => true
  | String c r => (Nat.ltb (nat_of_ascii c) 128 && is_ascii r)%bool
  end.

(** What is known of [str.upper], whatever the Unicode version: on a
    string of ASCII characters it is [ascii_upper]. *)
Definition upper_on_ascii (upper : string -> string) : Prop :=
  forall s : string, is_ascii s = true -> upper s = ascii_upper s.

(** Truth value of an [Optional[str]]: [None] and the empty string are
    false, every other string is true. *)
Definition truthy (o : option string) : bool :=
  match o with
  | None => false
  | Some EmptyString => false
  | Some (String _ _) => true
  end.

(** [a >= b] on floats (false as soon as one side is a NaN). *)
Definition float_ge (a b : float) : bool := PrimFloat.leb b a.

(** The values a [Dict[str, Any]] of the handlers holds. *)
Inductive value : Type :=
| VFloat (f : float)
| VStr (s : string)
| VDict (d : list (string * value)).

(** [d.get(k)] on a dict kept as an association list. *)
Fixpoint get {A : Type} (d : list (string * A)) (k : string) : option A :=
  match d with
  | [] => None
  | (k', v) :: r => if String.eqb k' k then Some v else get r k
  end.

(** [v[k1][k2]...]: the value under a path of keys in nested dicts. *)
Fixpoint at_path (v : value) (path : list string) : option value :=
  match path with
  | [] => Some v
  | k :: rest =>
      match v with
      | VDict d =>
          match get d k with
          | Some v' => at_path v' rest
          | None => None
          end
      | _ => None
      end
  end.

(** [list(d.keys())] and [list(d.values())]. *)
Definition keys {A : Type} (d : list (string * A)) : list string := map fst d.
Definition values {A : Type} (d : list (string * A)) : list A := map snd d.

(** [k in d]. *)
Definition contains {A : Type} (d : list (string * A)) (k : string) : bool :=
  match get d k with Some _ => true | None => false end.

End Py.

(** ** The clock and the handler monad *)

(** A [datetime]: calendar day (as a day number), and time of day. *)
Record datetime : Type := mkDatetime {
  day_number : Z;
  hour : Z;
  minute : Z;
  second : Z;
  microsecond : Z
}.

(** The hour of a [datetime] is one of the 24 hours of the day. *)
Definition valid_hour (d : datetime) : Prop := 0 <= hour d < 24.

(** The state a handler runs in: the readings the wall clock will give,
    and how many of them have been consumed. *)
Record World : Type := mkWorld {
  wall : nat -> datetime;
  reads : nat
}.

Definition peek (w : World) : datetime := wall w (reads w).

Definition tick (w : World) : World :=
  {| wall := wall w; reads := S (reads w) |}.

(** [HTTPException(status_code=..., detail=...)]. *)
Record HTTPException : Type := mkHTTPException {
  status_code : Z;
  detail : string
}.

Inductive Outcome (A : Type) : Type :=
| Return (a : A)
| Raise (e : HTTPException).
Arguments Return {A} a.
Arguments Raise {A} e.

Definition Handler (A : Type) : Type := World -> Outcome A * World.

Definition ret {A : Type} (a : A) : Handler A := fun w => (Return a, w).

Definition raise {A : Type} (e : HTTPException) : Handler A :=
  fun w => (Raise e, w).

Definition bind {A B : Type} (m : Handler A) (k : A -> Handler B) : Handler B :=
  fun w =>
    match m w with
    | (Return a, w') => k a w'
    | (Raise e, w') => (Raise e, w')
    end.

Notation "x <- m ;; k" := (bind m (fun x => k))
  (at level 61, m at next level, right associativity).

(** [datetime.now(timezone.utc)] and [datetime.utcnow()]: one clock read. *)
Definition datetime_now_utc : Handler datetime := fun w => (Return (peek w), tick w).
Definition datetime_utcnow : Handler datetime := fun w => (Return (peek w), tick w).

(** What a handler answers in a world, and the world it leaves. *)
Definition answer {A : Type} (m : Handler A) (w : World) : Outcome A := fst (m w).
Definition after {A : Type} (m : Handler A) (w : World) : World := snd (m w).

(** ** Helpers *)

(** [_get_current_session()]: the trading session of the current UTC hour. *)
Definition _get_current_session : Handler string :=
  now <- datetime_now_utc ;;
  let hour := hour now in
  if (0 <=? hour) && (hour <? 6) then ret "tokyo"
  else if (6 <=? hour) && (hour <? 9) then ret "tokyo_london"
  else if (9 <=? hour) && (hour <? 12) then ret "london"
  else if (12 <=? hour) && (hour <? 16) then ret "london_new_york"
  else if (16 <=? hour) && (hour <? 21) then ret "new_york"
  else ret "sydney".

(** ** Models

    Each pydantic model is a record in a module of its name, so that its
    fields keep the names of the source. *)

Module ForexPair.
Record t : Type := mk {
  symbol : string;
  base : string;
  quote : string;
  category : string;
  pip_value : float;
  spread_avg : option float
}.
End ForexPair.

(** [ForexPair(symbol=..., base=..., quote=..., category=..., pip_value=...)]:
    [spread_avg] is left to its default, [None]. *)
Definition ForexPair_ (symbol base quote category : string) (pip_value : float)
  : ForexPair.t :=
  ForexPair.mk symbol base quote category pip_value None.

Module AnalyzeRequest.
Record t : Type := mk {
  symbol : string;
  timeframe : string;
  include_ai : bool
}.
(** The defaults of the optional fields. *)
Definition default_timeframe : string := "1h".
Definition default_include_ai : bool := true.
End AnalyzeRequest.

Module AnalysisResult.
Record t : Type := mk {
  symbol : string;
  timeframe : string;
  timestamp : datetime;
  price : float;
  direction : string;
  confidence : float;
  indicators : list (string * Py.value);
  session : string;
  volatility : string;
  support_levels : list float;
  resistance_levels : list float;
  ai_analysis : option (list (string * Py.value))
}.
(** [result.ai_analysis = v]. *)
Definition set_ai_analysis (r : t) (v : list (string * Py.value)) : t :=
  {| symbol := symbol r;
     timeframe := timeframe r;
     timestamp := timestamp r;
     price := price r;
     direction := direction r;
     confidence := confidence r;
     indicators := indicators r;
     session := session r;
     volatility := volatility r;
     support_levels := support_levels r;
     resistance_levels := resistance_levels r;
     ai_analysis := Some v |}.
End AnalysisResult.

Module Signal.
Record t : Type := mk {
  id : string;
  symbol : string;
  direction : string;
  entry_price : float;
  stop_loss : float;
  take_profit : float;
  confidence : float;
  timeframe : string;
  session : string;
  created_at : datetime;
  expires_at : option datetime;
  reasoning : string
}.
End Signal.

(** ** Forex pairs data *)

Definition FOREX_PAIRS : list (string * ForexPair.t) :=
  [ (* Majors *)
    ("EURUSD", ForexPair_ "EURUSD" "EUR" "USD" "major" 0.0001%float);
    ("GBPUSD", ForexPair_ "GBPUSD" "GBP" "USD" "major" 0.0001%float);
    ("USDJPY", ForexPair_ "USDJPY" "USD" "JPY" "major" 0.01%float);
    ("USDCHF", ForexPair_ "USDCHF" "USD" "CHF" "major" 0.0001%float);
    ("AUDUSD", ForexPair_ "AUDUSD" "AUD" "USD" "major" 0.0001%float);
    ("USDCAD", ForexPair_ "USDCAD" "USD" "CAD" "major" 0.0001%float);
    ("NZDUSD", ForexPair_ "NZDUSD" "NZD" "USD" "major" 0.0001%float);
    (* Minors (crosses) *)
    ("EURGBP", ForexPair_ "EURGBP" "EUR" "GBP" "minor" 0.0001%float);
    ("EURJPY", ForexPair_ "EURJPY" "EUR" "JPY" "minor" 0.01%float);
    ("GBPJPY", ForexPair_ "GBPJPY" "GBP" "JPY" "minor" 0.01%float);
    ("AUDJPY", ForexPair_ "AUDJPY" "AUD" "JPY" "minor" 0.01%float);
    ("EURAUD", ForexPair_ "EURAUD" "EUR" "AUD" "minor" 0.0001%float);
    ("EURCHF", ForexPair_ "EURCHF" "EUR" "CHF" "minor" 0.0001%float);
    ("GBPCHF", ForexPair_ "GBPCHF" "GBP" "CHF" "minor" 0.0001%float);
    (* Exotics *)
    ("USDZAR", ForexPair_ "USDZAR" "USD" "ZAR" "exotic" 0.0001%float);
    ("USDMXN", ForexPair_ "USDMXN" "USD" "MXN" "exotic" 0.0001%float);
    ("USDTRY", ForexPair_ "USDTRY" "USD" "TRY" "exotic" 0.0001%float);
    ("USDINR", ForexPair_ "USDINR" "USD" "INR" "exotic" 0.0001%float) ].

(** ** Routes *)

Section Routes.

(** [str.upper], as the interpreter that runs the routes defines it. *)
Variable str_upper : string -> string.

(** [GET /pairs]: list available forex pairs. *)
Definition list_pairs (category : option string) : list ForexPair.t :=
  let pairs := Py.values FOREX_PAIRS in
  match category with
  | Some c =>
      if Py.truthy category
      then filter (fun p => String.eqb p.(ForexPair.category) c) pairs
      else pairs
  | None => pairs
  end.

(** The body of the 404 answer: [f"Pair {symbol} not found"]. *)
Definition pair_not_found (symbol : string) : HTTPException :=
  {| status_code := 404; detail := "Pair " ++ symbol ++ " not found" |}.

(** An exception that is not an [HTTPException] (a [KeyError] of
    [FOREX_PAIRS[symbol]]) reaches the framework, which answers 500. *)
Definition uncaught_exception : HTTPException :=
  {| status_code := 500; detail := "Internal Server Error" |}.

(** [GET /pairs/{symbol}]: forex pair details. *)
Definition get_pair (symbol : string) : Outcome ForexPair.t :=
  let symbol := str_upper symbol in
  if negb (Py.contains FOREX_PAIRS symbol) then Raise (pair_not_found symbol)
  else
    match Py.get FOREX_PAIRS symbol with
    | Some p => Return p
    | None => Raise uncaught_exception
    end.

(** [POST /analyze]: the mock analysis of a forex pair. *)
Definition analyze_pair (request : AnalyzeRequest.t) : Handler AnalysisResult.t :=
  let symbol := str_upper request.(AnalyzeRequest.symbol) in
  if negb (Py.contains FOREX_PAIRS symbol) then raise (pair_not_found symbol)
  else
    session <- _get_current_session ;;
    timestamp <- datetime_utcnow ;;
    let result :=
      {| AnalysisResult.symbol := symbol;
         AnalysisResult.timeframe := request.(AnalyzeRequest.timeframe);
         AnalysisResult.timestamp := timestamp;
         AnalysisResult.price := 1.0850%float;
         AnalysisResult.direction := "NEUTRAL";
         AnalysisResult.confidence := 0.65%float;
         AnalysisResult.indicators :=
           [ ("rsi", Py.VFloat 52.3%float);
             ("macd", Py.VDict [ ("value", Py.VFloat 0.0012%float);
                                 ("signal", Py.VFloat 0.0008%float);
                                 ("histogram", Py.VFloat 0.0004%float) ]);
             ("bb", Py.VDict [ ("upper", Py.VFloat 1.0900%float);
                               ("middle", Py.VFloat 1.0850%float);
                               ("lower", Py.VFloat 1.0800%float) ]);
             ("atr", Py.VFloat 0.0045%float);
             ("ema_20", Py.VFloat 1.0845%float);
             ("ema_50", Py.VFloat 1.0830%float);
             ("ema_200", Py.VFloat 1.0780%float) ];
         AnalysisResult.session := session;
         AnalysisResult.volatility := "MEDIUM";
         AnalysisResult.support_levels :=
           [1.0800%float; 1.0750%float; 1.0700%float];
         AnalysisResult.resistance_levels :=
           [1.0900%float; 1.0950%float; 1.1000%float];
         AnalysisResult.ai_analysis := None |} in
    let result :=
      if request.(AnalyzeRequest.include_ai) then
        AnalysisResult.set_ai_analysis result
          [ ("bull_case", Py.VStr "EUR strength on hawkish ECB stance");
            ("bear_case", Py.VStr "USD safe-haven demand amid risk-off");
            ("key_levels", Py.VStr "Watch 1.0900 resistance");
            ("session_bias",
             Py.VStr (session ++ " session typically bullish for EUR")) ]
      else result in
    ret result.

(** The two mock signals; [created_at] is the clock reading taken when the
    signal is built. *)
Definition signal_fx_001 (created_at : datetime) : Signal.t :=
  {| Signal.id := "fx-001";
     Signal.symbol := "EURUSD";
     Signal.direction := "LONG";
     Signal.entry_price := 1.0850%float;
     Signal.stop_loss := 1.0800%float;
     Signal.take_profit := 1.0950%float;
     Signal.confidence := 0.78%float;
     Signal.timeframe := "4h";
     Signal.session := "london";
     Signal.created_at := created_at;
     Signal.expires_at := None;
     Signal.reasoning := "Bullish engulfing at support with RSI divergence" |}.

Definition signal_fx_002 (created_at : datetime) : Signal.t :=
  {| Signal.id := "fx-002";
     Signal.symbol := "GBPJPY";
     Signal.direction := "SHORT";
     Signal.entry_price := 188.50%float;
     Signal.stop_loss := 189.20%float;
     Signal.take_profit := 187.00%float;
     Signal.confidence := 0.72%float;
     Signal.timeframe := "1h";
     Signal.session := "tokyo";
     Signal.created_at := created_at;
     Signal.expires_at := None;
     Signal.reasoning := "Double top pattern with bearish momentum" |}.

(** The default of the query parameter [min_confidence]. *)
Definition default_min_confidence : float := 0.7%float.

(** [GET /signals]: the current forex signals.  A query parameter that
    the request does not carry is [None]; for [min_confidence] the
    declared default is then used. *)
Definition get_signals (symbol direction : option string)
    (min_confidence : option float) : Handler (list Signal.t) :=
  let min_confidence :=
    match min_confidence with Some m => m | None => default_min_confidence end in
  t1 <- datetime_utcnow ;;
  t2 <- datetime_utcnow ;;
  let signals := [signal_fx_001 t1; signal_fx_002 t2] in
  (* Apply filters *)
  let signals :=
    match symbol with
    | Some sy =>
        if Py.truthy symbol
        then filter (fun s => String.eqb s.(Signal.symbol) (str_upper sy)) signals
        else signals
    | None => signals
    end in
  let signals :=
    match direction with
    | Some d =>
        if Py.truthy direction
        then filter (fun s => String.eqb s.(Signal.direction) (str_upper d)) signals
        else signals
    | None => signals
    end in
  let signals :=
    filter (fun s => Py.float_ge s.(Signal.confidence) min_confidence) signals in
  ret signals.

(** [GET /sessions]: forex trading sessions info. *)
Definition get_sessions : Handler (list (string * Py.value)) :=
  current_session <- _get_current_session ;;
  ret
    [ ("current_session", Py.VStr current_session);
      ("sessions",
       Py.VDict
         [ ("sydney", Py.VDict [ ("open", Py.VStr "21:00");
                                 ("close", Py.VStr "06:00");
                                 ("timezone", Py.VStr "UTC") ]);
           ("tokyo", Py.VDict [ ("open", Py.VStr "00:00");
                                ("close", Py.VStr "09:00");
                                ("timezone", Py.VStr "UTC") ]);
           ("london", Py.VDict [ ("open", Py.VStr "07:00");
                                 ("close", Py.VStr "16:00");
                                 ("timezone", Py.VStr "UTC") ]);
           ("new_york", Py.VDict [ ("open", Py.VStr "12:00");
                                   ("close", Py.VStr "21:00");
                                   ("timezone", Py.VStr "UTC") ]) ]);
      ("overlaps",
       Py.VDict
         [ ("tokyo_london", Py.VDict [ ("start", Py.VStr "07:00");
                                       ("end", Py.VStr "09:00");
                                       ("volatility", Py.VStr "HIGH") ]);
           ("london_new_york", Py.VDict [ ("start", Py.VStr "12:00");
                                          ("end", Py.VStr "16:00");
                                          ("volatility", Py.VStr "HIGHEST") ]) ]) ].

(** * Vocabulary of the properties *)

(** A world whose clock shows the hour [h] at every reading. *)
Definition world_at (h : Z) : World :=
  {| wall := fun _ => mkDatetime 0 h 0 0 0; reads := 0 |}.

(** The symbols of the catalog, in insertion order. *)
Definition catalog_symbols : list string :=
  [ "EURUSD"; "GBPUSD"; "USDJPY"; "USDCHF"; "AUDUSD"; "USDCAD"; "NZDUSD";
    "EURGBP"; "EURJPY"; "GBPJPY"; "AUDJPY"; "EURAUD"; "EURCHF"; "GBPCHF";
    "USDZAR"; "USDMXN"; "USDTRY"; "USDINR" ].

(** No pair of the catalog has the category [c]. *)
Definition no_pair_in (c : string) : bool :=
  negb (existsb (fun p => String.eqb p.(ForexPair.category) c)
                (Py.values FOREX_PAIRS)).

(** The table of section 4.1 of the specification: half-open ranges
    [lo, hi) of UTC hours, each with its label. *)
Definition session_table : list (Z * Z * string) :=
  [ (0, 6, "tokyo");
    (6, 9, "tokyo_london");
    (9, 12, "london");
    (12, 16, "london_new_york");
    (16, 21, "new_york");
    (21, 24, "sydney") ].

Definition in_range (h : Z) (row : Z * Z * string) : bool :=
  let '(lo, hi, _) := row in (lo <=? h) && (h <? hi).

(** The indicator bundle and the levels of the mock analysis. *)
Definition mock_indicators : list (string * Py.value) :=
  [ ("rsi", Py.VFloat 52.3%float);
    ("macd", Py.VDict [ ("value", Py.VFloat 0.0012%float);
                        ("signal", Py.VFloat 0.0008%float);
                        ("histogram", Py.VFloat 0.0004%float) ]);
    ("bb", Py.VDict [ ("upper", Py.VFloat 1.0900%float);
                      ("middle", Py.VFloat 1.0850%float);
                      ("lower", Py.VFloat 1.0800%float) ]);
    ("atr", Py.VFloat 0.0045%float);
    ("ema_20", Py.VFloat 1.0845%float);
    ("ema_50", Py.VFloat 1.0830%float);
    ("ema_200", Py.VFloat 1.0780%float) ].

(** The keys of a dict value (none for a value that is not a dict). *)
Definition dict_keys (v : option Py.value) : list string :=
  match v with
  | Some (Py.VDict d) => Py.keys d
  | _ => []
  end.

(** The mock signals built in a world: the first takes the current clock
    reading, the second the next one. *)
Definition seed_signals (w : World) : list Signal.t :=
  [signal_fx_001 (peek w); signal_fx_002 (peek (tick w))].

(** A string filter accepts a field when the filter is absent or empty, or
    when the field is the uppercase form of the filter. *)
Definition accepts (filter : option string) (field : string) : bool :=
  match filter with
  | None => true
  | Some EmptyString => true
  | Some f => String.eqb field (str_upper f)
  end.

(** The threshold in force: the given one, or the default. *)
Definition threshold (min_confidence : option float) : float :=
  match min_confidence with Some m => m | None => default_min_confidence end.

(** The conjunction of the three filters. *)
Definition kept (symbol direction : option string)
    (min_confidence : option float) (s : Signal.t) : bool :=
  accepts symbol s.(Signal.symbol)
  && accepts direction s.(Signal.direction)
  && Py.float_ge s.(Signal.confidence) (threshold min_confidence).

(** The constant part of the answer of the sessions endpoint: the table of
    the named sessions and the two overlap windows. *)
Definition session_schedule : list (string * Py.value) :=
  [ ("sessions",
     Py.VDict
       [ ("sydney", Py.VDict [ ("open", Py.VStr "21:00"); ("close", Py.VStr "06:00");
                               ("timezone", Py.VStr "UTC") ]);
         ("tokyo", Py.VDict [ ("open", Py.VStr "00:00"); ("close", Py.VStr "09:00");
                              ("timezone", Py.VStr "UTC") ]);
         ("london", Py.VDict [ ("open", Py.VStr "07:00"); ("close", Py.VStr "16:00");
                               ("timezone", Py.VStr "UTC") ]);
         ("new_york", Py.VDict [ ("open", Py.VStr "12:00"); ("close", Py.VStr "21:00");
                                 ("timezone", Py.VStr "UTC") ]) ]);
    ("overlaps",
     Py.VDict
       [ ("tokyo_london", Py.VDict [ ("start", Py.VStr "07:00"); ("end", Py.VStr "09:00");
                                     ("volatility", Py.VStr "HIGH") ]);
         ("london_new_york", Py.VDict [ ("start", Py.VStr "12:00"); ("end", Py.VStr "16:00");
                                        ("volatility", Py.VStr "HIGHEST") ]) ]) ].

(** The hour of a time of day written HH:MM. *)
Definition digit (c : ascii) : option Z :=
  let n := nat_of_ascii c in
  if (Nat.leb 48 n && Nat.leb n 57)%bool then Some (Z.of_nat (n - 48)) else None.

Definition hour_of_hhmm (s : string) : option Z :=
  match s with
  | String a (String b (String ":" (String _ (String _ EmptyString)))) =>
      match digit a, digit b with
      | Some x, Some y => Some (10 * x + y)
      | _, _ => None
      end
  | _ => None
  end.

Definition schedule_hour (resp : list (string * Py.value)) (path : list string)
  : option Z :=
  match Py.at_path (Py.VDict resp) path with
  | Some (Py.VStr s) => hour_of_hhmm s
  | _ => None
  end.

(** Two analysis results that agree on every field but the symbol and the
    timeframe. *)
Definition same_analysis (r1 r2 : AnalysisResult.t) : Prop :=
  r1.(AnalysisResult.timestamp) = r2.(AnalysisResult.timestamp)
  /\ r1.(AnalysisResult.price) = r2.(AnalysisResult.price)
  /\ r1.(AnalysisResult.direction) = r2.(AnalysisResult.direction)
  /\ r1.(AnalysisResult.confidence) = r2.(AnalysisResult.confidence)
  /\ r1.(AnalysisResult.indicators) = r2.(AnalysisResult.indicators)
  /\ r1.(AnalysisResult.session) = r2.(AnalysisResult.session)
  /\ r1.(AnalysisResult.volatility) = r2.(AnalysisResult.volatility)
  /\ r1.(AnalysisResult.support_levels) = r2.(AnalysisResult.support_levels)
  /\ r1.(AnalysisResult.resistance_levels) = r2.(AnalysisResult.resistance_levels)
  /\ r1.(AnalysisResult.ai_analysis) = r2.(AnalysisResult.ai_analysis).

(** A world whose clock shows the hour [h0] at its first reading and the
    hour [h1] at every later one. *)
Definition world_turning (h0 h1 : Z) : World :=
  {| wall := fun n => match n with
                      | O => mkDatetime 0 h0 59 59 999999
                      | S _ => mkDatetime 0 h1 0 0 0
                      end;
     reads := 0 |}.

(** The stop and the target of a signal lie on the sides of the entry
    price that its direction asks for. *)
Definition levels_ordered (s : Signal.t) : bool :=
  if String.eqb s.(Signal.direction) "LONG" then
    PrimFloat.ltb s.(Signal.stop_loss) s.(Signal.entry_price)
    && PrimFloat.ltb s.(Signal.entry_price) s.(Signal.take_profit)
  else if String.eqb s.(Signal.direction) "SHORT" then
    PrimFloat.ltb s.(Signal.take_profit) s.(Signal.entry_price)
    && PrimFloat.ltb s.(Signal.entry_price) s.(Signal.stop_loss)
  else false.

(** The window the schedule of a sessions answer gives to a label: the
    open and close hours of a named session, or the start and end hours of
    an overlap. *)
Definition label_window (resp : list (string * Py.value)) (label : string)
  : option (Z * Z) :=
  match schedule_hour resp ["sessions"; label; "open"],
        schedule_hour resp ["sessions"; label; "close"] with
  | Some o, Some c => Some (o, c)
  | _, _ =>
      match schedule_hour resp ["overlaps"; label; "start"],
            schedule_hour resp ["overlaps"; label; "end"] with
      | Some o, Some c => Some (o, c)
      | _, _ => None
      end
  end.

(** The hour [h] lies in the window from [o] to [c] (closing hour
    excluded); a window whose closing hour is before its opening hour runs
    over midnight. *)
Definition in_window (h : Z) (win : Z * Z) : bool :=
  let '(o, c) := win in
  if o <=? c then (o <=? h) && (h <? c) else (o <=? h) || (h <? c).

(** * Properties *)

(** ** The handler monad *)

Lemma answer_ret {A : Type} (a : A) (w : World) : answer (ret a) w = Return a.
Proof. reflexivity. Qed.

Lemma run_session (w : World) :
  exists label, _get_current_session w = (Return label, tick w).
Proof.
  unfold _get_current_session, bind, datetime_now_utc.
  repeat match goal with
         | |- context [if ?b then _ else _] => destruct b
         end; eexists; reflexivity.
Qed.

(** ** The pair catalog *)

Lemma filter_none {A : Type} (f : A -> bool) (l : list A) :
  existsb f l = false -> filter f l = [].
Proof.
  induction l as [|a l IH]; simpl; [reflexivity|].
  destruct (f a); simpl; [discriminate | exact IH].
Qed.

(** C1, as stated, fails: the catalog has 18 entries, so listing without a
    filter does not return 19 of them. *)
Lemma list_pairs_not_19 : List.length (list_pairs None) <> 19%nat.
Proof. vm_compute. discriminate. Qed.

(** C1 (amended): listing pairs with no category filter returns all 18
    catalog entries (7 majors, then 7 minors, then 4 exotics) in the
    insertion order of the catalog; the filter "major" returns exactly the
    7 major pairs, in that order; a non-empty category that no pair has
    (such as "nonexistent") returns the empty sequence. *)
Theorem list_pairs_catalog :
  list_pairs None = Py.values FOREX_PAIRS
  /\ List.length (list_pairs None) = 18%nat
  /\ map ForexPair.symbol (list_pairs None) = catalog_symbols
  /\ map ForexPair.category (list_pairs None)
     = (repeat "major" 7%nat ++ repeat "minor" 7%nat ++ repeat "exotic" 4%nat)%list
  /\ list_pairs (Some "major") = firstn 7%nat (Py.values FOREX_PAIRS)
  /\ map ForexPair.symbol (list_pairs (Some "major")) = firstn 7%nat catalog_symbols
  /\ list_pairs (Some "nonexistent") = []
  /\ (forall c : string,
        c <> "" -> no_pair_in c = true -> list_pairs (Some c) = []).
Proof.
  repeat split; try reflexivity.
  intros c Hc Hno. unfold list_pairs.
  destruct c as [|a r]; [contradiction|]. simpl Py.truthy. cbv iota.
  apply filter_none. unfold no_pair_in in Hno.
  now apply negb_true_iff in Hno.
Qed.

Lemma list_pairs_catalog_witness :
  list_pairs (Some "crypto") = [].
Proof.
  apply (proj2 (proj2 (proj2 (proj2 (proj2 (proj2 (proj2 list_pairs_catalog)))))) "crypto").
  - discriminate.
  - reflexivity.
Defined.

(** C7: every pair of the catalog has a positive pip value, which is 0.01
    when the quote currency is JPY and 0.0001 otherwise, and no average
    spread. *)
Theorem catalog_pip_values (p : ForexPair.t) :
  In p (Py.values FOREX_PAIRS) ->
  PrimFloat.ltb 0%float p.(ForexPair.pip_value) = true
  /\ p.(ForexPair.pip_value)
     = (if String.eqb p.(ForexPair.quote) "JPY" then 0.01%float else 0.0001%float)
  /\ p.(ForexPair.spread_avg) = None.
Proof.
  unfold Py.values, FOREX_PAIRS; simpl.
  intros H.
  repeat (destruct H as [H | H]; [subst p; repeat split; reflexivity |]).
  contradiction.
Qed.

Lemma catalog_pip_values_witness :
  PrimFloat.ltb 0%float 0.01%float = true
  /\ 0.01%float = 0.01%float
  /\ @None float = None.
Proof.
  apply (catalog_pip_values (ForexPair_ "USDJPY" "USD" "JPY" "major" 0.01%float)).
  unfold Py.values, FOREX_PAIRS; simpl. right; right; left; reflexivity.
Defined.

(** ** The session classifier *)

Lemma hour_cases (h : Z) :
  0 <= h < 24 ->
  In h [0; 1; 2; 3; 4; 5; 6; 7; 8; 9; 10; 11; 12; 13; 14; 15; 16; 17; 18; 19;
        20; 21; 22; 23].
Proof. simpl. lia. Qed.

(** C2: the classifier never fails; at every hour of the day it returns
    one label, the label of the only row of the table of section 4.1 that
    covers the hour: 0-5 tokyo, 6-8 tokyo_london, 9-11 london, 12-15
    london_new_york, 16-20 new_york, 21-23 sydney. *)
Theorem current_session_table (w : World) :
  let h := hour (peek w) in
  0 <= h < 24 ->
  exists label : string,
    _get_current_session w = (Return label, tick w)
    /\ map snd (filter (in_range h) session_table) = [label]
    /\ (0 <= h <= 5 -> label = "tokyo")
    /\ (6 <= h <= 8 -> label = "tokyo_london")
    /\ (9 <= h <= 11 -> label = "london")
    /\ (12 <= h <= 15 -> label = "london_new_york")
    /\ (16 <= h <= 20 -> label = "new_york")
    /\ (21 <= h <= 23 -> label = "sydney").
Proof.
  intros h Hh. apply hour_cases in Hh.
  unfold _get_current_session, bind, datetime_now_utc.
  fold h. clearbody h. simpl in Hh.
  repeat (destruct Hh as [Hh | Hh];
          [subst h; eexists; repeat split;
           intros; first [reflexivity | lia] |]).
  contradiction.
Qed.

Lemma current_session_table_witness :
  exists label : string,
    _get_current_session (world_at 7) = (Return label, tick (world_at 7))
    /\ map snd (filter (in_range 7) session_table) = [label]
    /\ (0 <= 7 <= 5 -> label = "tokyo")
    /\ (6 <= 7 <= 8 -> label = "tokyo_london")
    /\ (9 <= 7 <= 11 -> label = "london")
    /\ (12 <= 7 <= 15 -> label = "london_new_york")
    /\ (16 <= 7 <= 20 -> label = "new_york")
    /\ (21 <= 7 <= 23 -> label = "sydney").
Proof.
  apply (current_session_table (world_at 7)). simpl. lia.
Defined.

(** ** Empty filters *)

(** C9: an empty-string filter is treated as an absent one.  Listing pairs
    with the empty category returns the whole catalog, and listing signals
    with an empty symbol or direction filters nothing on that parameter;
    a non-empty category does filter. *)
Theorem empty_filter_is_absent :
  list_pairs (Some "") = list_pairs None
  /\ list_pairs (Some "") = Py.values FOREX_PAIRS
  /\ list_pairs (Some "") <> []
  /\ (forall direction min_confidence,
        get_signals (Some "") direction min_confidence
        = get_signals None direction min_confidence)
  /\ (forall symbol min_confidence,
        get_signals symbol (Some "") min_confidence
        = get_signals symbol None min_confidence)
  /\ (forall c : string,
        c <> "" ->
        list_pairs (Some c)
        = filter (fun p => String.eqb p.(ForexPair.category) c)
                 (Py.values FOREX_PAIRS)).
Proof.
  repeat split; try reflexivity.
  - discriminate.
  - intros c Hc. destruct c; [contradiction | reflexivity].
Qed.

(** ** Pair detail *)

(** The catalog is keyed by the symbol of each pair. *)
Lemma catalog_key_is_symbol (k : string) (p : ForexPair.t) :
  Py.get FOREX_PAIRS k = Some p -> p.(ForexPair.symbol) = k.
Proof.
  unfold FOREX_PAIRS; cbn [Py.get].
  repeat match goal with
         | |- context [String.eqb ?a k] =>
             destruct (String.eqb_spec a k) as [<- | _]
         end;
    intros H; try discriminate; injection H as <-; reflexivity.
Qed.

Lemma get_pair_found (s : string) (p : ForexPair.t) :
  Py.get FOREX_PAIRS (str_upper s) = Some p -> get_pair s = Return p.
Proof.
  intros H. unfold get_pair, Py.contains. now rewrite H.
Qed.

Lemma get_pair_missing (s : string) :
  Py.get FOREX_PAIRS (str_upper s) = None ->
  get_pair s = Raise (pair_not_found (str_upper s)).
Proof.
  intros H. unfold get_pair, Py.contains. now rewrite H.
Qed.

(** The keys of the catalog are written in ASCII capitals, which
    [str.upper] leaves as they are. *)
Lemma catalog_key_is_upper (k : string) (p : ForexPair.t) :
  Py.upper_on_ascii str_upper ->
  Py.get FOREX_PAIRS k = Some p -> str_upper k = k.
Proof.
  intros U. unfold FOREX_PAIRS; cbn [Py.get].
  repeat match goal with
         | |- context [String.eqb ?a k] =>
             destruct (String.eqb_spec a k) as [<- | _]
         end;
    intros H; try discriminate;
    match goal with
    | |- str_upper ?a = _ => rewrite (U a eq_refl); reflexivity
    end.
Qed.

(** C5: pair detail uppercases the symbol before the lookup.  Two
    spellings with the same uppercase form get the same answer ("eurusd"
    and "EURUSD" both get the EURUSD record); a symbol whose uppercase form
    is a key of the catalog gets the record of that key, as the uppercase
    spelling itself does, never a failure; any other symbol fails with
    status 404 and the message "Pair <uppercased symbol> not found". *)
Theorem get_pair_lookup (symbol : string) :
  Py.upper_on_ascii str_upper ->
  (forall other : string,
     str_upper other = str_upper symbol -> get_pair other = get_pair symbol)
  /\ match Py.get FOREX_PAIRS (str_upper symbol) with
     | Some p =>
         get_pair symbol = Return p
         /\ p.(ForexPair.symbol) = str_upper symbol
         /\ get_pair (str_upper symbol) = Return p
     | None =>
         get_pair symbol
         = Raise {| status_code := 404;
                    detail := "Pair " ++ str_upper symbol ++ " not found" |}
     end
  /\ (Py.contains FOREX_PAIRS (str_upper symbol) = true ->
      exists p, get_pair symbol = Return p)
  /\ get_pair "eurusd" = get_pair "EURUSD"
  /\ get_pair "EURUSD"
     = Return (ForexPair_ "EURUSD" "EUR" "USD" "major" 0.0001%float).
Proof.
  intros U. split.
  { intros other H. unfold get_pair. now rewrite H. }
  split.
  { destruct (Py.get FOREX_PAIRS (str_upper symbol)) as [p|] eqn:E.
    - split; [now apply get_pair_found|].
      split; [now apply catalog_key_is_symbol|].
      apply get_pair_found.
      now rewrite (catalog_key_is_upper _ _ U E).
    - now apply get_pair_missing. }
  split.
  { unfold Py.contains.
    destruct (Py.get FOREX_PAIRS (str_upper symbol)) as [p|] eqn:E;
      [| discriminate].
    intros _. exists p. now apply get_pair_found. }
  unfold get_pair. rewrite (U "eurusd" eq_refl), (U "EURUSD" eq_refl).
  split; reflexivity.
Qed.

(** ** Analysis *)

(** C6: analysis of a symbol whose uppercase form is not in the catalog
    fails with 404 and names the symbol, without reading the clock.  On a
    known symbol it returns a result whose session is what the classifier
    answers in the same world, whose indicators are the fixed bundle (rsi,
    macd with value/signal/histogram, bb with upper/middle/lower, atr,
    ema_20, ema_50, ema_200), whose support and resistance levels are
    fixed, and whose ai_analysis is a non-empty dict when include_ai is
    true and None when it is false. *)
Theorem analyze_pair_result (request : AnalyzeRequest.t) (w : World) :
  let symbol := str_upper request.(AnalyzeRequest.symbol) in
  if Py.contains FOREX_PAIRS symbol then
    exists r : AnalysisResult.t,
      analyze_pair request w = (Return r, tick (tick w))
      /\ answer _get_current_session w = Return r.(AnalysisResult.session)
      /\ r.(AnalysisResult.symbol) = symbol
      /\ r.(AnalysisResult.indicators) = mock_indicators
      /\ Py.keys r.(AnalysisResult.indicators)
         = ["rsi"; "macd"; "bb"; "atr"; "ema_20"; "ema_50"; "ema_200"]
      /\ dict_keys (Py.get r.(AnalysisResult.indicators) "macd")
         = ["value"; "signal"; "histogram"]
      /\ dict_keys (Py.get r.(AnalysisResult.indicators) "bb")
         = ["upper"; "middle"; "lower"]
      /\ r.(AnalysisResult.support_levels)
         = [1.0800%float; 1.0750%float; 1.0700%float]
      /\ r.(AnalysisResult.resistance_levels)
         = [1.0900%float; 1.0950%float; 1.1000%float]
      /\ match r.(AnalysisResult.ai_analysis) with
         | Some d =>
             request.(AnalyzeRequest.include_ai) = true
             /\ d <> []
             /\ Py.keys d
                = ["bull_case"; "bear_case"; "key_levels"; "session_bias"]
         | None => request.(AnalyzeRequest.include_ai) = false
         end
  else
    analyze_pair request w = (Raise (pair_not_found symbol), w)
    /\ status_code (pair_not_found symbol) = 404
    /\ detail (pair_not_found symbol) = "Pair " ++ symbol ++ " not found".
Proof.
  intros symbol. unfold analyze_pair. fold symbol.
  destruct (Py.contains FOREX_PAIRS symbol) eqn:E; cbn [negb].
  - destruct (run_session w) as [label Hl].
    unfold bind, answer, datetime_utcnow, ret. rewrite Hl. cbn [fst].
    eexists. split; [reflexivity|].
    destruct (AnalyzeRequest.include_ai request); simpl;
      repeat split; try reflexivity; discriminate.
  - repeat split.
Qed.

(** ** Signals *)

Lemma filter_twice {A : Type} (f g : A -> bool) (l : list A) :
  filter g (filter f l) = filter (fun x => f x && g x) l.
Proof.
  induction l as [|a l IH]; simpl; [reflexivity|].
  destruct (f a); simpl; [destruct (g a) |]; now rewrite IH.
Qed.

Lemma filter_all {A : Type} (l : list A) : filter (fun _ => true) l = l.
Proof. induction l as [|a l IH]; simpl; [reflexivity | now rewrite IH]. Qed.

Lemma filter_by (q : option string) (field : Signal.t -> string)
    (l : list Signal.t) :
  match q with
  | Some f =>
      if Py.truthy q
      then filter (fun s => String.eqb (field s) (str_upper f)) l
      else l
  | None => l
  end = filter (fun s => accepts q (field s)) l.
Proof.
  destruct q as [[|c r]|]; simpl; try reflexivity;
    symmetry; apply filter_all.
Qed.

(** What [get_signals] computes: it reads the clock twice and keeps the
    seed signals that pass the three filters. *)
Lemma get_signals_run (symbol direction : option string)
    (min_confidence : option float) (w : World) :
  get_signals symbol direction min_confidence w
  = (Return (filter (kept symbol direction min_confidence) (seed_signals w)),
     tick (tick w)).
Proof.
  unfold get_signals, bind, datetime_utcnow, ret. cbv iota beta.
  rewrite (filter_by symbol Signal.symbol).
  rewrite (filter_by direction Signal.direction).
  rewrite !filter_twice. do 2 f_equal.
  apply filter_ext. intros s. unfold kept, threshold.
  now rewrite andb_assoc.
Qed.

Lemma accepts_upper (x y : string) (field : string) :
  x <> "" -> y <> "" ->
  str_upper x = str_upper y -> accepts (Some x) field = accepts (Some y) field.
Proof.
  intros Hx Hy H. destruct x as [|a x], y as [|b y]; try contradiction.
  unfold accepts. now rewrite H.
Qed.

(** The symbols of the seed signals are keys of the catalog. *)
Lemma unknown_symbol_rejected_by_filter (sy : string) (w : World) :
  sy <> "" ->
  Py.contains FOREX_PAIRS (str_upper sy) = false ->
  forall s, In s (seed_signals w) -> accepts (Some sy) s.(Signal.symbol) = false.
Proof.
  intros Hne Hc s Hs.
  destruct sy as [|a r]; [contradiction|].
  unfold accepts. destruct (String.eqb_spec (Signal.symbol s) (str_upper (String a r)))
    as [E|]; [| reflexivity].
  rewrite <- E in Hc.
  destruct Hs as [<- | [<- | []]]; vm_compute in Hc; discriminate.
Qed.

(** C3 (amended): the signals endpoint never rejects a request; its symbol
    parameter is only a filter, so a non-empty symbol whose uppercase form
    is not in the catalog gets the empty signal list. *)
Theorem signals_never_reject (symbol direction : option string)
    (min_confidence : option float) (w : World) :
  (exists l, answer (get_signals symbol direction min_confidence) w = Return l)
  /\ (forall sy : string,
        symbol = Some sy ->
        sy <> "" ->
        Py.contains FOREX_PAIRS (str_upper sy) = false ->
        answer (get_signals symbol direction min_confidence) w = Return []).
Proof.
  unfold answer. rewrite get_signals_run. cbn [fst]. split.
  - eexists; reflexivity.
  - intros sy -> Hne Hc. f_equal.
    apply filter_none. apply not_true_is_false. intros H.
    apply existsb_exists in H. destruct H as [s [Hs Hk]].
    unfold kept in Hk.
    rewrite (unknown_symbol_rejected_by_filter sy w Hne Hc s Hs) in Hk.
    discriminate.
Qed.

(** C4: signal listing keeps the seed signals that pass three filters at
    once: the symbol and the direction, each compared with the uppercase
    form of its parameter (the seed signals are written in uppercase, so
    the letter case of the parameter does not matter), and a confidence at
    least the threshold, 0.7 when none is given.  With the seed
    confidences 0.78 (EURUSD LONG) and 0.72 (GBPJPY SHORT): the threshold
    0.75 keeps only the first, 0.9 keeps none, a threshold equal to a
    confidence keeps that signal, and the direction "SHORT" in any letter
    case keeps only the GBPJPY signal. *)
Theorem get_signals_filters (symbol direction : option string)
    (min_confidence : option float) (w : World) :
  Py.upper_on_ascii str_upper ->
  get_signals symbol direction min_confidence w
  = (Return (filter (kept symbol direction min_confidence) (seed_signals w)),
     tick (tick w))
  /\ threshold None = 0.7%float
  /\ (forall s, In s (seed_signals w) ->
        str_upper s.(Signal.symbol) = s.(Signal.symbol)
        /\ str_upper s.(Signal.direction) = s.(Signal.direction))
  /\ (forall x y : string,
        x <> "" -> y <> "" ->
        str_upper x = str_upper y ->
        get_signals (Some x) direction min_confidence w
        = get_signals (Some y) direction min_confidence w)
  /\ (forall x y : string,
        x <> "" -> y <> "" ->
        str_upper x = str_upper y ->
        get_signals symbol (Some x) min_confidence w
        = get_signals symbol (Some y) min_confidence w)
  /\ map (fun s => (s.(Signal.symbol), s.(Signal.direction), s.(Signal.confidence)))
         (seed_signals w)
     = [("EURUSD", "LONG", 0.78%float); ("GBPJPY", "SHORT", 0.72%float)]
  /\ answer (get_signals None None (Some 0.75%float)) w
     = Return [signal_fx_001 (peek w)]
  /\ answer (get_signals None None (Some 0.9%float)) w = Return []
  /\ answer (get_signals None None (Some 0.78%float)) w
     = Return [signal_fx_001 (peek w)]
  /\ answer (get_signals None None (Some 0.72%float)) w = Return (seed_signals w)
  /\ answer (get_signals None None None) w = Return (seed_signals w)
  /\ (forall d : string,
        str_upper d = "SHORT" ->
        answer (get_signals None (Some d) None) w
        = Return [signal_fx_002 (peek (tick w))]).
Proof.
  intros U.
  split; [apply get_signals_run|].
  split; [reflexivity|].
  split.
  { intros s [<- | [<- | []]]; cbn [Signal.symbol Signal.direction
                                      signal_fx_001 signal_fx_002];
      split;
      match goal with
      | |- str_upper ?a = _ => rewrite (U a eq_refl); reflexivity
      end. }
  split.
  { intros x y Hx Hy H. rewrite !get_signals_run. do 2 f_equal.
    apply filter_ext. intros s. unfold kept.
    now rewrite (accepts_upper x y _ Hx Hy H). }
  split.
  { intros x y Hx Hy H. rewrite !get_signals_run. do 2 f_equal.
    apply filter_ext. intros s. unfold kept.
    now rewrite (accepts_upper x y _ Hx Hy H). }
  repeat (split; [reflexivity|]).
  intros d H. unfold answer. rewrite get_signals_run. cbn [fst]. f_equal.
  destruct d as [|a r].
  { rewrite (U "" eq_refl) in H. discriminate. }
  unfold seed_signals, kept, accepts. rewrite H. reflexivity.
Qed.

(** ** Sessions *)

(** C8: in every world the sessions endpoint answers, and its
    current_session is the label the classifier answers in the same world;
    the rest of the answer is the same constant in every world. *)
Theorem get_sessions_consistent (w : World) :
  exists label : string,
    answer _get_current_session w = Return label
    /\ answer get_sessions w
       = Return (("current_session", Py.VStr label) :: session_schedule)
    /\ after get_sessions w = after _get_current_session w.
Proof.
  destruct (run_session w) as [label Hl]. exists label.
  unfold answer, after, get_sessions, bind, ret. rewrite Hl.
  repeat split.
Qed.

Lemma london_hours (w : World) :
  answer _get_current_session w = Return "london" <-> 9 <= hour (peek w) <= 11.
Proof.
  unfold answer, _get_current_session, bind, datetime_now_utc, ret.
  cbn [fst]. generalize (hour (peek w)). intros h.
  repeat match goal with
         | |- context [Z.leb ?a ?b] => destruct (Z.leb_spec a b)
         | |- context [Z.ltb ?a ?b] => destruct (Z.ltb_spec a b)
         end; cbn; split; intros Hret; try lia; try discriminate; reflexivity.
Qed.

(** C10: the schedule returned by the sessions endpoint does not follow
    the hour boundaries of the classifier.  At hour 6 the classifier (and
    the current_session of the endpoint) is tokyo_london, while the
    schedule starts the tokyo_london overlap at 07:00; the schedule opens
    london at 07:00 and closes it at 16:00, yet at hours 7 and 8 the
    classifier answers tokyo_london, and it answers london only at hours
    9 to 11. *)
Theorem schedule_differs_from_classifier (w : World) :
  hour (peek w) = 6 ->
  exists resp : list (string * Py.value),
    answer get_sessions w = Return resp
    /\ answer _get_current_session w = Return "tokyo_london"
    /\ Py.get resp "current_session" = Some (Py.VStr "tokyo_london")
    /\ Py.at_path (Py.VDict resp) ["overlaps"; "tokyo_london"; "start"]
       = Some (Py.VStr "07:00")
    /\ schedule_hour resp ["overlaps"; "tokyo_london"; "start"] = Some 7
    /\ schedule_hour resp ["sessions"; "london"; "open"] = Some 7
    /\ schedule_hour resp ["sessions"; "london"; "close"] = Some 16
    /\ (forall w' : World,
          hour (peek w') = 7 \/ hour (peek w') = 8 ->
          answer _get_current_session w' = Return "tokyo_london")
    /\ (forall w' : World,
          answer _get_current_session w' = Return "london"
          <-> 9 <= hour (peek w') <= 11).
Proof.
  intros H.
  unfold answer, get_sessions, _get_current_session, bind, datetime_now_utc.
  rewrite H. cbn. eexists.
  do 7 (split; [reflexivity|]). split.
  - intros w' [H' | H']; rewrite H'; reflexivity.
  - apply london_hours.
Qed.

Lemma schedule_differs_from_classifier_witness :
  exists resp : list (string * Py.value),
    answer get_sessions (world_at 6) = Return resp
    /\ answer _get_current_session (world_at 6) = Return "tokyo_london"
    /\ Py.get resp "current_session" = Some (Py.VStr "tokyo_london")
    /\ Py.at_path (Py.VDict resp) ["overlaps"; "tokyo_london"; "start"]
       = Some (Py.VStr "07:00")
    /\ schedule_hour resp ["overlaps"; "tokyo_london"; "start"] = Some 7
    /\ schedule_hour resp ["sessions"; "london"; "open"] = Some 7
    /\ schedule_hour resp ["sessions"; "london"; "close"] = Some 16
    /\ (forall w' : World,
          hour (peek w') = 7 \/ hour (peek w') = 8 ->
          answer _get_current_session w' = Return "tokyo_london")
    /\ (forall w' : World,
          answer _get_current_session w' = Return "london"
          <-> 9 <= hour (peek w') <= 11).
Proof.
  apply (schedule_differs_from_classifier (world_at 6)). reflexivity.
Defined.

(** * Further properties of the routes *)

(** ** Catalog: listing and detail together *)

Lemma get_In {A : Type} (d : list (string * A)) (k : string) (v : A) :
  Py.get d k = Some v -> In v (Py.values d).
Proof.
  induction d as [|[k' v'] d IH]; simpl; [discriminate|].
  destruct (String.eqb k' k).
  - intros H; injection H as ->. now left.
  - intros H. right. now apply IH.
Qed.

Lemma list_pairs_incl (category : option string) (p : ForexPair.t) :
  In p (list_pairs category) -> In p (Py.values FOREX_PAIRS).
Proof.
  unfold list_pairs. destruct category as [c|]; [| trivial].
  destruct (Py.truthy (Some c)); [| trivial].
  intros H. now apply filter_In in H.
Qed.

Lemma catalog_categories (p : ForexPair.t) :
  In p (Py.values FOREX_PAIRS) ->
  In p.(ForexPair.category) ["major"; "minor"; "exotic"].
Proof.
  unfold Py.values, FOREX_PAIRS; cbn [map snd].
  intros H.
  repeat (destruct H as [H | H];
          [subst p; cbn; tauto |]).
  contradiction.
Qed.

Lemma get_pair_return_inv (symbol : string) (p : ForexPair.t) :
  get_pair symbol = Return p -> Py.get FOREX_PAIRS (str_upper symbol) = Some p.
Proof.
  unfold get_pair, Py.contains.
  destruct (Py.get FOREX_PAIRS (str_upper symbol)) as [q|];
    cbn [negb]; [| discriminate].
  intros H; now injection H as ->.
Qed.

Lemma catalog_symbol_listed (p : ForexPair.t) :
  In p (Py.values FOREX_PAIRS) -> In p.(ForexPair.symbol) catalog_symbols.
Proof.
  intros H. change catalog_symbols with (map ForexPair.symbol (Py.values FOREX_PAIRS)).
  now apply in_map.
Qed.

(** X1: every pair a listing returns, whatever the category filter, can be
    fetched by its symbol, and the detail endpoint then returns that very
    record. *)
Theorem listed_pair_has_detail (category : option string) (p : ForexPair.t) :
  Py.upper_on_ascii str_upper ->
  In p (list_pairs category) -> get_pair p.(ForexPair.symbol) = Return p.
Proof.
  intros U H. apply list_pairs_incl in H.
  unfold Py.values, FOREX_PAIRS in H; cbn [map snd] in H.
  repeat (destruct H as [H | H];
          [subst p; unfold get_pair; cbn [ForexPair.symbol ForexPair_];
           match goal with
           | |- context [str_upper ?a] => rewrite (U a eq_refl)
           end; reflexivity |]).
  contradiction.
Qed.

(** X2: a record the detail endpoint returns is a catalog entry: its
    symbol is the uppercase form of the requested one, and it appears in
    the unfiltered listing and in the listing of its own category. *)
Theorem detail_is_listed (symbol : string) (p : ForexPair.t) :
  get_pair symbol = Return p ->
  p.(ForexPair.symbol) = str_upper symbol
  /\ In p (list_pairs None)
  /\ In p (list_pairs (Some p.(ForexPair.category))).
Proof.
  intros H. apply get_pair_return_inv in H. rename H into E.
  pose proof (get_In _ _ _ E) as Hin.
  split; [now apply catalog_key_is_symbol|].
  split; [exact Hin|].
  pose proof (catalog_categories p Hin) as Hc.
  unfold list_pairs.
  destruct (ForexPair.category p) as [|a r] eqn:Ec.
  - cbn in Hc. intuition discriminate.
  - cbn [Py.truthy]. apply filter_In. split; [exact Hin|].
    rewrite Ec. apply String.eqb_refl.
Qed.

(** X3: the category filter is exact and case-sensitive: a listing is
    empty for every category other than "major", "minor", "exotic" and the
    empty string (so "MAJOR" or "Major" list nothing), and non-empty for
    these four. *)
Theorem category_filter_is_exact (c : string) :
  list_pairs (Some c) = [] <-> ~ In c [""; "major"; "minor"; "exotic"].
Proof.
  split.
  - intros H Hin. cbn in Hin.
    destruct Hin as [<- | [<- | [<- | [<- | []]]]]; discriminate H.
  - intros Hn. destruct c as [|a r]; [exfalso; apply Hn; now left|].
    unfold list_pairs. cbn [Py.truthy].
    apply filter_none. apply not_true_is_false. intros E.
    apply existsb_exists in E. destruct E as [p [Hp He]].
    apply String.eqb_eq in He. apply catalog_categories in Hp.
    rewrite He in Hp. apply Hn. now right.
Qed.

(** X4: the three category listings partition the catalog: put end to end
    they are the unfiltered listing, in which no symbol occurs twice. *)
Theorem category_listings_partition :
  (list_pairs (Some "major") ++ list_pairs (Some "minor")
   ++ list_pairs (Some "exotic"))%list
  = list_pairs None
  /\ NoDup (map ForexPair.symbol (list_pairs None)).
Proof.
  split; [reflexivity|].
  cbn. repeat constructor; cbn; intuition discriminate.
Qed.

(** X5: the detail endpoint answers exactly the symbols whose uppercase
    form is one of the 18 catalog symbols. *)
Theorem get_pair_accepts_catalog_symbols (symbol : string) :
  (exists p, get_pair symbol = Return p) <-> In (str_upper symbol) catalog_symbols.
Proof.
  split.
  - intros [p H]. apply get_pair_return_inv in H.
    rewrite <- (catalog_key_is_symbol _ _ H).
    apply catalog_symbol_listed. now apply get_In in H.
  - intros H. cbn in H.
    repeat (destruct H as [H | H];
            [unfold get_pair; rewrite <- H; eexists; reflexivity |]).
    contradiction.
Qed.

(** ** Analysis *)

(** Runs [analyze_pair] on a known symbol: names the session label and
    exposes the result. *)
Ltac run_analysis w label Hl :=
  destruct (run_session w) as [label Hl];
  unfold analyze_pair, answer, bind, datetime_utcnow, ret;
  repeat match goal with
         | H : Py.contains FOREX_PAIRS _ = true |- _ => rewrite H
         end;
  cbn [negb]; rewrite Hl; cbn [fst snd].

(** X6: analysis and pair detail accept the same symbols: when the detail
    endpoint rejects a symbol, analysis raises the same exception and
    leaves the clock untouched; when it returns a pair, analysis returns a
    result that carries the symbol of that pair. *)
Theorem analyze_agrees_with_get_pair (request : AnalyzeRequest.t) (w : World) :
  match get_pair request.(AnalyzeRequest.symbol) with
  | Raise e => analyze_pair request w = (Raise e, w)
  | Return p =>
      exists r : AnalysisResult.t,
        analyze_pair request w = (Return r, tick (tick w))
        /\ r.(AnalysisResult.symbol) = p.(ForexPair.symbol)
  end.
Proof.
  unfold get_pair, Py.contains.
  destruct (Py.get FOREX_PAIRS (str_upper (AnalyzeRequest.symbol request)))
    as [p|] eqn:E; cbn [negb].
  - assert (Hc : Py.contains FOREX_PAIRS
                   (str_upper (AnalyzeRequest.symbol request)) = true)
      by (unfold Py.contains; now rewrite E).
    apply catalog_key_is_symbol in E.
    destruct (run_session w) as [label Hl].
    unfold analyze_pair, bind, datetime_utcnow, ret.
    rewrite Hc. cbn [negb]. rewrite Hl.
    eexists. split; [reflexivity|].
    rewrite E. now destruct (AnalyzeRequest.include_ai request).
  - unfold analyze_pair, Py.contains. rewrite E. reflexivity.
Qed.

(** X7: the analysis is the same for every pair: two requests on known
    symbols with the same include_ai flag, served in the same world, get
    results that differ at most in the symbol and the timeframe they echo. *)
Theorem analysis_ignores_the_pair (req1 req2 : AnalyzeRequest.t) (w : World) :
  Py.contains FOREX_PAIRS (str_upper req1.(AnalyzeRequest.symbol)) = true ->
  Py.contains FOREX_PAIRS (str_upper req2.(AnalyzeRequest.symbol)) = true ->
  req1.(AnalyzeRequest.include_ai) = req2.(AnalyzeRequest.include_ai) ->
  exists r1 r2 : AnalysisResult.t,
    answer (analyze_pair req1) w = Return r1
    /\ answer (analyze_pair req2) w = Return r2
    /\ r1.(AnalysisResult.symbol) = str_upper req1.(AnalyzeRequest.symbol)
    /\ r1.(AnalysisResult.timeframe) = req1.(AnalyzeRequest.timeframe)
    /\ same_analysis r1 r2.
Proof.
  intros H1 H2 Hai. run_analysis w label Hl. rewrite Hai.
  do 2 eexists. split; [reflexivity|]. split; [reflexivity|].
  destruct (AnalyzeRequest.include_ai req2); unfold same_analysis; cbn;
    repeat split.
Qed.

(** X8: the session of an analysis comes from the first clock reading and
    its timestamp from the second one.  When the hour turns from 5 to 6
    between the two readings, the result says "tokyo" although its own
    timestamp lies in the hour the classifier calls "tokyo_london". *)
Theorem analysis_timestamp_after_session (request : AnalyzeRequest.t) (w : World) :
  Py.contains FOREX_PAIRS (str_upper request.(AnalyzeRequest.symbol)) = true ->
  exists r : AnalysisResult.t,
    answer (analyze_pair request) w = Return r
    /\ r.(AnalysisResult.timestamp) = peek (tick w)
    /\ answer _get_current_session w = Return r.(AnalysisResult.session)
    /\ (hour (peek w) = 5 ->
        hour (peek (tick w)) = 6 ->
        r.(AnalysisResult.session) = "tokyo"
        /\ hour r.(AnalysisResult.timestamp) = 6
        /\ answer _get_current_session (tick w) = Return "tokyo_london").
Proof.
  intros H. run_analysis w label Hl.
  eexists. split; [reflexivity|].
  split; [now destruct (AnalyzeRequest.include_ai request)|].
  split; [now destruct (AnalyzeRequest.include_ai request)|].
  intros H5 H6.
  assert (label = "tokyo") as ->.
  { unfold _get_current_session, bind, datetime_now_utc in Hl.
    rewrite H5 in Hl. cbn in Hl. now injection Hl. }
  split; [now destruct (AnalyzeRequest.include_ai request)|].
  split; [now destruct (AnalyzeRequest.include_ai request)|].
  unfold _get_current_session, bind, datetime_now_utc.
  rewrite H6. reflexivity.
Qed.

(** X9: whenever an analysis carries the AI block, its session_bias text
    is the session of the result followed by a fixed phrase, and its other
    three entries are fixed texts about EUR and USD, whatever the pair. *)
Theorem session_bias_names_session (request : AnalyzeRequest.t) (w : World)
    (r : AnalysisResult.t) (ai : list (string * Py.value)) :
  answer (analyze_pair request) w = Return r ->
  r.(AnalysisResult.ai_analysis) = Some ai ->
  Py.get ai "session_bias"
  = Some (Py.VStr (r.(AnalysisResult.session)
                   ++ " session typically bullish for EUR"))
  /\ Py.get ai "bull_case" = Some (Py.VStr "EUR strength on hawkish ECB stance")
  /\ Py.get ai "bear_case" = Some (Py.VStr "USD safe-haven demand amid risk-off")
  /\ Py.get ai "key_levels" = Some (Py.VStr "Watch 1.0900 resistance")
  /\ List.length ai = 4%nat.
Proof.
  destruct (Py.contains FOREX_PAIRS (str_upper (AnalyzeRequest.symbol request)))
    eqn:H.
  - run_analysis w label Hl.
    destruct (AnalyzeRequest.include_ai request); intros Hr; injection Hr as <-;
      cbn; intros Hai; [| discriminate].
    injection Hai as <-. repeat split.
  - unfold analyze_pair, answer. rewrite H. discriminate.
Qed.

(** ** Signals *)

(** The order of binary64 floats, through its specification on
    [spec_float]. *)
Lemma SFleb_trans (x y z : spec_float) :
  SFleb x y = true -> SFleb y z = true -> SFleb x z = true.
Proof.
  unfold SFleb, SFcompare.
  destruct x as [s | s | | s mx ex], y as [t | t | | t my ey],
           z as [u | u | | u mz ez];
    try destruct s; try destruct t; try destruct u;
    try reflexivity; try discriminate;
    fold (Pos.compare mx my); fold (Pos.compare my mz);
    fold (Pos.compare mx mz);
    destruct (Z.compare_spec ex ey); try discriminate;
    destruct (Z.compare_spec ey ez); try discriminate;
    destruct (Z.compare_spec ex ez); try reflexivity; try lia;
    destruct (Pos.compare_spec mx my); try discriminate;
    destruct (Pos.compare_spec my mz); try discriminate;
    destruct (Pos.compare_spec mx mz); try reflexivity; try discriminate;
    intros; lia.
Qed.

Lemma float_leb_trans (x y z : float) :
  PrimFloat.leb x y = true -> PrimFloat.leb y z = true ->
  PrimFloat.leb x z = true.
Proof. rewrite !leb_spec. apply SFleb_trans. Qed.

Lemma float_ge_weaken (c m1 m2 : float) :
  PrimFloat.leb m1 m2 = true -> Py.float_ge c m2 = true -> Py.float_ge c m1 = true.
Proof. unfold Py.float_ge. intros H1 H2. exact (float_leb_trans _ _ _ H1 H2). Qed.

Lemma filter_incl_pointwise {A : Type} (f g : A -> bool) (l : list A) :
  (forall a, f a = true -> g a = true) -> incl (filter f l) (filter g l).
Proof.
  intros H a Ha. apply filter_In in Ha. apply filter_In.
  split; [tauto | apply H; tauto].
Qed.

Lemma Return_inj {A : Type} (a b : A) : Return a = Return b -> a = b.
Proof. intros H. now injection H. Qed.

Lemma get_signals_answer (symbol direction : option string)
    (min_confidence : option float) (w : World) :
  answer (get_signals symbol direction min_confidence) w
  = Return (filter (kept symbol direction min_confidence) (seed_signals w)).
Proof. unfold answer. now rewrite get_signals_run. Qed.

(** X10: every signal the endpoint returns, whatever the filters, names a
    symbol the detail endpoint knows, has the direction LONG or SHORT with
    its stop and its target on the matching sides of the entry price, has
    a confidence between 0 and 1 that reaches the threshold in force, and
    never expires. *)
Theorem returned_signals_are_sound (symbol direction : option string)
    (min_confidence : option float) (w : World) (l : list Signal.t)
    (s : Signal.t) :
  Py.upper_on_ascii str_upper ->
  answer (get_signals symbol direction min_confidence) w = Return l ->
  In s l ->
  (exists p, get_pair s.(Signal.symbol) = Return p)
  /\ In s.(Signal.direction) ["LONG"; "SHORT"]
  /\ levels_ordered s = true
  /\ PrimFloat.leb 0%float s.(Signal.confidence) = true
  /\ PrimFloat.leb s.(Signal.confidence) 1%float = true
  /\ Py.float_ge s.(Signal.confidence) (threshold min_confidence) = true
  /\ s.(Signal.expires_at) = None.
Proof.
  intros U.
  rewrite get_signals_answer. intros H. apply Return_inj in H. subst l.
  intros H. apply filter_In in H. destruct H as [Hs Hk].
  unfold kept in Hk. apply andb_true_iff in Hk. destruct Hk as [_ Hc].
  destruct Hs as [<- | [<- | []]];
    (split;
     [unfold get_pair; cbn [Signal.symbol signal_fx_001 signal_fx_002];
      match goal with
      | |- context [str_upper ?a] => rewrite (U a eq_refl)
      end; eexists; reflexivity|]);
    cbn [Signal.direction signal_fx_001 signal_fx_002 In];
    repeat split; try reflexivity; try exact Hc; tauto.
Qed.

(** X11: raising the confidence threshold never adds a signal: with the
    same symbol and direction filters, every signal returned for the
    higher threshold is returned for the lower one. *)
Theorem threshold_is_monotone (symbol direction : option string)
    (m1 m2 : float) (w : World) :
  PrimFloat.leb m1 m2 = true ->
  exists l1 l2 : list Signal.t,
    answer (get_signals symbol direction (Some m1)) w = Return l1
    /\ answer (get_signals symbol direction (Some m2)) w = Return l2
    /\ incl l2 l1.
Proof.
  intros H. rewrite !get_signals_answer. do 2 eexists.
  split; [reflexivity|]. split; [reflexivity|].
  apply filter_incl_pointwise. intros s Hs. unfold kept in *.
  apply andb_true_iff in Hs. destruct Hs as [Hf Hc].
  apply andb_true_iff. split; [exact Hf|].
  cbn [threshold] in *. exact (float_ge_weaken _ _ _ H Hc).
Qed.

(** X12: a threshold that the highest seed confidence, 0.78, does not
    reach empties the listing whatever the other filters: this is the case
    of every threshold above 0.78, of plus infinity and of a NaN, which
    no confidence is at least equal to. *)
Theorem threshold_out_of_reach (symbol direction : option string)
    (m : float) (w : World) :
  PrimFloat.leb m 0.78%float = false ->
  answer (get_signals symbol direction (Some m)) w = Return [].
Proof.
  intros H. rewrite get_signals_answer. f_equal.
  apply filter_none. apply not_true_is_false. intros E.
  apply existsb_exists in E. destruct E as [s [Hs Hk]].
  unfold kept in Hk. apply andb_true_iff in Hk. destruct Hk as [_ Hc].
  cbn [threshold] in Hc. unfold Py.float_ge in Hc.
  destruct Hs as [<- | [<- | []]]; cbn [Signal.confidence signal_fx_001
                                          signal_fx_002] in Hc.
  - congruence.
  - assert (PrimFloat.leb m 0.78%float = true); [| congruence].
    apply (float_leb_trans m 0.72%float 0.78%float Hc). reflexivity.
Qed.

(** X13: the direction parameter is not validated: a non-empty direction
    whose uppercase form is neither LONG nor SHORT is answered with the
    empty list, not with an error. *)
Theorem unknown_direction_lists_nothing (symbol : option string) (d : string)
    (min_confidence : option float) (w : World) :
  d <> "" ->
  str_upper d <> "LONG" ->
  str_upper d <> "SHORT" ->
  answer (get_signals symbol (Some d) min_confidence) w = Return [].
Proof.
  intros Hne HL HS. rewrite get_signals_answer. f_equal.
  apply filter_none. apply not_true_is_false. intros E.
  apply existsb_exists in E. destruct E as [s [Hs Hk]].
  unfold kept in Hk. apply andb_true_iff in Hk. destruct Hk as [Hk _].
  apply andb_true_iff in Hk. destruct Hk as [_ Hd].
  destruct d as [|a r]; [contradiction|].
  unfold accepts in Hd. apply String.eqb_eq in Hd.
  destruct Hs as [<- | [<- | []]]; cbn [Signal.direction signal_fx_001
                                          signal_fx_002] in Hd;
    [apply HL | apply HS]; now symmetry.
Qed.

(** ** Sessions *)

(** X14: at every hour of the day the current_session of the sessions
    answer is a label the schedule of the same answer describes (a named
    session or an overlap), and the hour lies in the window the schedule
    gives to that label at every hour but 6: at hour 6 the answer says
    tokyo_london, which its schedule starts at 07:00. *)
Theorem current_session_within_schedule (w : World) :
  let h := hour (peek w) in
  0 <= h < 24 ->
  exists (resp : list (string * Py.value)) (label : string) (win : Z * Z),
    answer get_sessions w = Return resp
    /\ Py.get resp "current_session" = Some (Py.VStr label)
    /\ label_window resp label = Some win
    /\ (in_window h win = true <-> h <> 6).
Proof.
  intros h Hh. apply hour_cases in Hh.
  unfold answer, get_sessions, _get_current_session, bind, datetime_now_utc.
  fold h. clearbody h. simpl in Hh.
  repeat (destruct Hh as [Hh | Hh];
          [subst h; do 3 eexists;
           do 3 (split; [reflexivity|]);
           cbn; split; intros; first [reflexivity | discriminate | lia] |]).
  contradiction.
Qed.

Lemma current_session_within_schedule_witness :
  exists (resp : list (string * Py.value)) (label : string) (win : Z * Z),
    answer get_sessions (world_at 22) = Return resp
    /\ Py.get resp "current_session" = Some (Py.VStr label)
    /\ label_window resp label = Some win
    /\ (in_window 22 win = true <-> 22 <> 6).
Proof.
  apply (current_session_within_schedule (world_at 22)). cbn. lia.
Defined.

End Routes.

(** * Instances

    The properties above hold for every [str.upper]; those that read a
    symbol of the catalog back assume [Py.upper_on_ascii].  The instances
    below run the routes on spellings made of ASCII characters, where
    [str.upper] is [Py.ascii_upper]. *)

Lemma ascii_upper_on_ascii : Py.upper_on_ascii Py.ascii_upper.
Proof. intros s _. reflexivity. Qed.

(** C3, as stated, fails: a symbol that is not in the catalog is not
    rejected by the signals endpoint, which answers the empty list. *)
Lemma signals_unknown_symbol_not_rejected :
  Py.is_ascii "XXXYYY" = true
  /\ Py.contains FOREX_PAIRS (Py.ascii_upper "XXXYYY") = false
  /\ answer (get_signals Py.ascii_upper (Some "XXXYYY") None None) (world_at 10)
     = Return []
  /\ forall e,
       answer (get_signals Py.ascii_upper (Some "XXXYYY") None None) (world_at 10)
       <> Raise e.
Proof. repeat split. discriminate. Qed.

Lemma signals_never_reject_witness :
  answer (get_signals Py.ascii_upper (Some "BTCUSD") (Some "LONG") None)
         (world_at 3)
  = Return [].
Proof.
  apply (proj2 (signals_never_reject Py.ascii_upper (Some "BTCUSD")
                  (Some "LONG") None (world_at 3)) "BTCUSD").
  - reflexivity.
  - discriminate.
  - reflexivity.
Defined.

Lemma get_signals_filters_witness :
  answer (get_signals Py.ascii_upper None (Some "Short") None) (world_at 13)
  = Return [signal_fx_002 (peek (tick (world_at 13)))].
Proof.
  apply (proj2 (proj2 (proj2 (proj2 (proj2 (proj2 (proj2 (proj2 (proj2 (proj2
          (proj2 (get_signals_filters Py.ascii_upper None None None
                    (world_at 13) ascii_upper_on_ascii)))))))))))
         "Short").
  reflexivity.
Defined.

Lemma get_pair_lookup_witness :
  get_pair Py.ascii_upper "GbpJpy" = get_pair Py.ascii_upper "gbpjpy"
  /\ exists p, get_pair Py.ascii_upper "gbpjpy" = Return p.
Proof.
  split.
  - apply (proj1 (get_pair_lookup Py.ascii_upper "gbpjpy"
                    ascii_upper_on_ascii) "GbpJpy").
    reflexivity.
  - apply (proj1 (proj2 (proj2 (get_pair_lookup Py.ascii_upper "gbpjpy"
                                  ascii_upper_on_ascii)))).
    reflexivity.
Defined.

Lemma analyze_pair_result_witness :
  (exists r : AnalysisResult.t,
     analyze_pair Py.ascii_upper (AnalyzeRequest.mk "eurusd" "4h" false)
                  (world_at 10)
     = (Return r, tick (tick (world_at 10)))
     /\ r.(AnalysisResult.symbol) = "EURUSD"
     /\ r.(AnalysisResult.session) = "london"
     /\ r.(AnalysisResult.ai_analysis) = None)
  /\ analyze_pair Py.ascii_upper (AnalyzeRequest.mk "xxxyyy" "4h" false)
                  (world_at 10)
     = (Raise {| status_code := 404; detail := "Pair XXXYYY not found" |},
        world_at 10).
Proof.
  split.
  - destruct (analyze_pair_result Py.ascii_upper
                (AnalyzeRequest.mk "eurusd" "4h" false) (world_at 10))
      as [r [Hr [Hs [Hsym [_ [_ [_ [_ [_ [_ Hai]]]]]]]]]].
    exists r. split; [exact Hr|]. split; [exact Hsym|].
    split.
    + injection Hs as Hs. now symmetry.
    + destruct (AnalysisResult.ai_analysis r) as [d|]; [| reflexivity].
      destruct Hai as [Hai _]. discriminate Hai.
  - apply (analyze_pair_result Py.ascii_upper
             (AnalyzeRequest.mk "xxxyyy" "4h" false) (world_at 10)).
Defined.

Lemma empty_filter_is_absent_witness :
  list_pairs (Some "minor")
  = filter (fun p => String.eqb p.(ForexPair.category) "minor")
           (Py.values FOREX_PAIRS).
Proof.
  apply (proj2 (proj2 (proj2 (proj2 (proj2
          (empty_filter_is_absent Py.ascii_upper))))) "minor").
  discriminate.
Defined.

Lemma listed_pair_has_detail_witness :
  get_pair Py.ascii_upper "AUDJPY"
  = Return (ForexPair_ "AUDJPY" "AUD" "JPY" "minor" 0.01%float).
Proof.
  apply (listed_pair_has_detail Py.ascii_upper (Some "minor")
           (ForexPair_ "AUDJPY" "AUD" "JPY" "minor" 0.01%float)
           ascii_upper_on_ascii).
  cbn. right; right; right; left; reflexivity.
Defined.

Lemma detail_is_listed_witness :
  ForexPair.symbol (ForexPair_ "USDTRY" "USD" "TRY" "exotic" 0.0001%float)
  = Py.ascii_upper "usdtry"
  /\ In (ForexPair_ "USDTRY" "USD" "TRY" "exotic" 0.0001%float) (list_pairs None)
  /\ In (ForexPair_ "USDTRY" "USD" "TRY" "exotic" 0.0001%float)
        (list_pairs (Some "exotic")).
Proof.
  apply (detail_is_listed Py.ascii_upper "usdtry"
           (ForexPair_ "USDTRY" "USD" "TRY" "exotic" 0.0001%float)).
  reflexivity.
Defined.

Lemma analysis_ignores_the_pair_witness :
  exists r1 r2 : AnalysisResult.t,
    answer (analyze_pair Py.ascii_upper (AnalyzeRequest.mk "eurusd" "1h" true))
           (world_at 14)
    = Return r1
    /\ answer (analyze_pair Py.ascii_upper (AnalyzeRequest.mk "USDJPY" "1d" true))
              (world_at 14)
       = Return r2
    /\ r1.(AnalysisResult.symbol) = Py.ascii_upper "eurusd"
    /\ r1.(AnalysisResult.timeframe) = "1h"
    /\ same_analysis r1 r2.
Proof.
  apply (analysis_ignores_the_pair Py.ascii_upper
           (AnalyzeRequest.mk "eurusd" "1h" true)
           (AnalyzeRequest.mk "USDJPY" "1d" true) (world_at 14));
    reflexivity.
Defined.

Lemma analysis_timestamp_after_session_witness :
  exists r : AnalysisResult.t,
    answer (analyze_pair Py.ascii_upper (AnalyzeRequest.mk "GBPUSD" "15m" false))
           (world_turning 5 6) = Return r
    /\ r.(AnalysisResult.session) = "tokyo"
    /\ hour r.(AnalysisResult.timestamp) = 6
    /\ answer _get_current_session (tick (world_turning 5 6))
       = Return "tokyo_london".
Proof.
  destruct (analysis_timestamp_after_session Py.ascii_upper
              (AnalyzeRequest.mk "GBPUSD" "15m" false) (world_turning 5 6)
              eq_refl) as [r [Hr [_ [_ Hturn]]]].
  exists r. split; [exact Hr|].
  apply Hturn; reflexivity.
Defined.

Lemma session_bias_names_session_witness :
  Py.get
    [ ("bull_case", Py.VStr "EUR strength on hawkish ECB stance");
      ("bear_case", Py.VStr "USD safe-haven demand amid risk-off");
      ("key_levels", Py.VStr "Watch 1.0900 resistance");
      ("session_bias", Py.VStr "new_york session typically bullish for EUR") ]
    "session_bias"
  = Some (Py.VStr ("new_york" ++ " session typically bullish for EUR")).
Proof.
  refine (proj1 (session_bias_names_session Py.ascii_upper
                   (AnalyzeRequest.mk "usdjpy" "1h" true) (world_at 17)
                   _ _ eq_refl eq_refl)).
Defined.

Lemma returned_signals_are_sound_witness :
  (exists p, get_pair Py.ascii_upper "GBPJPY" = Return p)
  /\ In "SHORT" ["LONG"; "SHORT"]
  /\ levels_ordered (signal_fx_002 (peek (tick (world_at 2)))) = true
  /\ PrimFloat.leb 0%float 0.72%float = true
  /\ PrimFloat.leb 0.72%float 1%float = true
  /\ Py.float_ge 0.72%float (threshold None) = true
  /\ @None datetime = None.
Proof.
  apply (returned_signals_are_sound Py.ascii_upper (Some "gbpjpy") None None
           (world_at 2)
           [signal_fx_002 (peek (tick (world_at 2)))]
           (signal_fx_002 (peek (tick (world_at 2))))
           ascii_upper_on_ascii).
  - reflexivity.
  - left; reflexivity.
Defined.

Lemma threshold_is_monotone_witness :
  exists l1 l2 : list Signal.t,
    answer (get_signals Py.ascii_upper None None (Some 0.7%float)) (world_at 9)
    = Return l1
    /\ answer (get_signals Py.ascii_upper None None (Some 0.75%float)) (world_at 9)
       = Return l2
    /\ incl l2 l1.
Proof.
  apply (threshold_is_monotone Py.ascii_upper None None 0.7%float 0.75%float
           (world_at 9)).
  reflexivity.
Defined.

Lemma threshold_out_of_reach_witness :
  answer (get_signals Py.ascii_upper None None (Some nan)) (world_at 0)
  = Return []
  /\ answer (get_signals Py.ascii_upper None (Some "LONG") (Some infinity))
            (world_at 0)
     = Return [].
Proof.
  split.
  - apply (threshold_out_of_reach Py.ascii_upper None None nan (world_at 0)).
    reflexivity.
  - apply (threshold_out_of_reach Py.ascii_upper None (Some "LONG") infinity
             (world_at 0)).
    reflexivity.
Defined.

Lemma unknown_direction_lists_nothing_witness :
  answer (get_signals Py.ascii_upper None (Some "buy") None) (world_at 11)
  = Return [].
Proof.
  apply (unknown_direction_lists_nothing Py.ascii_upper None "buy" None
           (world_at 11));
    discriminate.
Defined.
